(** * Learning-rate schedulers of [learning_rates.py]

    A shallow embedding of the scheduler dataclasses and of their
    [__call__] methods, followed by the properties the specification
    states about them.

    Modelling conventions.
    - A Python [int] is a [Z]; [//] and [%] are floor division and its
      remainder, which is what [Z.div] and [Z.modulo] compute.
    - A Python [float] is a real number of [R]: arithmetic is exact, so
      rounding, overflow, infinities and NaN are outside the model.
      [math.cos] is [cos], [math.pi] is [PI], [math.floor] is [Zfloor].
    - An exception is a value: a method returns [result A], either [Ok a]
      or [Raise e].  Every division tests its divisor, as Python does.
    - The [while] loop of [CosineAnnealingWarmRestarts] is run with fuel:
      [None] means that the fuel did not suffice.
    - A power with a float exponent ([PolynomialLR]) returns a [pynum]:
      a float, or the complex number Python answers with for a negative
      base under an exponent that is not whole. *)

From Stdlib Require Import Reals ZArith List Bool Lia Lra.
From Stdlib Require Import Permutation.
Import ListNotations.

Local Open Scope Z_scope.
Local Open Scope R_scope.

(** ** Python primitives *)

Inductive exn : Set :=
| ZeroDivisionError
| AssertionError.

Inductive result (A : Type) : Type :=
| Ok (a : A)
| Raise (e : exn).

Arguments Ok {A} a.
Arguments Raise {A} e.

Definition bind {A B : Type} (m : result A) (k : A -> result B) : result B :=
  match m with
  | Ok a => k a
  | Raise e => Raise e
  end.

(** [x / y] where the result is a float: int / int, float / int, float / float. *)
Definition truediv (x y : R) : result R :=
  if Req_dec_T y 0 then Raise ZeroDivisionError else Ok (x / y).

(** [a // b] on ints. *)
Definition floordiv (a b : Z) : result Z :=
  if (b =? 0)%Z then Raise ZeroDivisionError else Ok (a / b)%Z.

(** [a % b] on ints. *)
Definition pymod (a b : Z) : result Z :=
  if (b =? 0)%Z then Raise ZeroDivisionError else Ok (a mod b)%Z.

(** [x ** n] for a float [x] and an int [n]: [0.0 ** 0] is [1.0], and a
    zero base with a negative exponent raises. *)
Definition py_pow (x : R) (n : Z) : result R :=
  if (n <? 0)%Z then
    if Req_dec_T x 0 then Raise ZeroDivisionError else Ok (powerRZ x n)
  else Ok (powerRZ x n).

(** [assert b]. *)
Definition py_assert (b : bool) : result unit :=
  if b then Ok tt else Raise AssertionError.

(** [x <= y] on floats, as a boolean. *)
Definition py_le (x y : R) : bool :=
  if Rle_dec x y then true else false.

(** [max(x, y)]: the first argument is kept unless the second is larger. *)
Definition py_max (x y : R) : R :=
  if Rlt_dec x y then y else x.

(** [sum(l)] for a list of booleans: [True] counts 1, [False] counts 0,
    added from the left starting at 0. *)
Definition py_sum (l : list bool) : Z :=
  fold_left (fun acc (b : bool) => (acc + (if b then 1 else 0))%Z) l 0%Z.

Notation "x <- m ;; k" := (bind m (fun x => k))
  (at level 61, m at next level, right associativity).

(** ** CosineScheduler *)

Module CosineScheduler.

Record t : Type := mk {
  max_lr : R;
  min_lr : R;
  warmup_iters : Z;
  max_iters : Z
}.

(** The generated [__init__] stores its arguments; the class has no
    [__post_init__]. *)
Definition __init__ (max_lr min_lr : R) (warmup_iters max_iters : Z) : result t :=
  Ok (mk max_lr min_lr warmup_iters max_iters).

(** The ratio computed in the middle branch, before the assertion. *)
Definition decay_ratio (self : t) (iteration : Z) : result R :=
  truediv (IZR (iteration - warmup_iters self))
          (IZR (max_iters self - warmup_iters self)).

Definition __call__ (self : t) (iteration : Z) : result R :=
  if (iteration <? warmup_iters self)%Z then
    truediv (max_lr self * IZR iteration) (IZR (warmup_iters self))
  else if (iteration >? max_iters self)%Z then
    Ok (min_lr self)
  else
    r <- decay_ratio self iteration ;;
    _ <- py_assert (py_le 0 r && py_le r 1) ;;
    let coeff := 0.5 * (1.0 + cos (PI * r)) in
    Ok (min_lr self + coeff * (max_lr self - min_lr self)).

End CosineScheduler.

(** ** StepLR *)

Module StepLR.

Record t : Type := mk {
  max_lr : R;
  max_iters : Z;
  gamma : R
}.

Definition __call__ (self : t) (iteration : Z) : result R :=
  q <- floordiv iteration (max_iters self) ;;
  p <- py_pow (gamma self) q ;;
  Ok (max_lr self * p).

End StepLR.

(** ** MultiStepLR *)

Module MultiStepLR.

Record t : Type := mk {
  max_lr : R;
  max_iters : Z;
  gamma : R;
  milestones : list Z
}.

Definition __init__ (max_lr : R) (max_iters : Z) (gamma : R)
    (milestones : list Z) : result t :=
  Ok (mk max_lr max_iters gamma milestones).

Definition __call__ (self : t) (iteration : Z) : result R :=
  p <- py_pow (gamma self)
              (py_sum (map (fun m => (iteration >=? m)%Z) (milestones self))) ;;
  Ok (max_lr self * p).

(** The specification's exponent: how many milestones [m] have [m <= t]. *)
Definition reached (iteration : Z) (ms : list Z) : nat :=
  length (filter (fun m => (m <=? iteration)%Z) ms).

End MultiStepLR.

(** ** LinearLR *)

Module LinearLR.

Record t : Type := mk {
  max_lr : R;
  max_iters : Z
}.

Definition __call__ (self : t) (iteration : Z) : result R :=
  q <- truediv (IZR iteration) (IZR (max_iters self)) ;;
  Ok (max_lr self * (1 - q)).

End LinearLR.

(** ** CyclicLR *)

Module CyclicLR.

Record t : Type := mk {
  max_lr : R;
  min_lr : R;
  max_iters : Z
}.

Definition __call__ (self : t) (iteration : Z) : result R :=
  q <- truediv (IZR iteration) (IZR (2 * max_iters self)) ;;
  let cycle := Zfloor (1 + q) in
  r <- truediv (IZR iteration) (IZR (max_iters self)) ;;
  let x := Rabs (r - IZR (2 * cycle) + 1) in
  Ok (min_lr self + (max_lr self - min_lr self) * py_max 0 (1 - x)).

End CyclicLR.

(** ** OneCycleLR *)

Module OneCycleLR.

Record t : Type := mk {
  max_lr : R;
  min_lr : R;
  max_iters : Z;
  pct_start : R
}.


(** The expression returned by the [if] branch, at position [x]. *)
Definition rising (self : t) (x : R) : result R :=
  r <- truediv x (pct_start self * IZR (max_iters self)) ;;
  Ok (min_lr self + (max_lr self - min_lr self) * r).

(** The expression returned by the [else] branch, at position [x]. *)
Definition falling (self : t) (x : R) : result R :=
  r <- truediv (x - pct_start self * IZR (max_iters self))
               ((1 - pct_start self) * IZR (max_iters self)) ;;
  Ok (max_lr self - (max_lr self - min_lr self) * r).

Definition __call__ (self : t) (iteration : Z) : result R :=
  q <- truediv (IZR iteration) (IZR (max_iters self)) ;;
  if py_le q (pct_start self) then rising self (IZR iteration)
  else falling self (IZR iteration).

End OneCycleLR.

(** ** CosineAnnealingWarmRestarts *)

Module CosineAnnealingWarmRestarts.

Record t : Type := mk {
  max_lr : R;
  min_lr : R;
  warmup_steps : Z;
  T_mult : Z
}.

(** [while iteration >= T_i: iteration -= T_i; T_i *= T_mult], one unit
    of fuel per pass; the final [(iteration, T_i)] when the loop exits. *)
Fixpoint while_loop (fuel : nat) (T_mult iteration T_i : Z) : option (Z * Z) :=
  if (iteration >=? T_i)%Z then
    match fuel with
    | O => None
    | S fuel' => while_loop fuel' T_mult (iteration - T_i)%Z (T_i * T_mult)%Z
    end
  else Some (iteration, T_i).

Definition __call__ (fuel : nat) (self : t) (iteration : Z) : option (result R) :=
  match pymod iteration (warmup_steps self) with
  | Raise e => Some (Raise e)
  | Ok T_cur =>
      let T_i := warmup_steps self in
      match while_loop fuel (T_mult self) iteration T_i with
      | None => None
      | Some _ =>
          Some (a <- truediv (PI * IZR T_cur) (IZR (warmup_steps self)) ;;
                Ok (min_lr self
                    + (max_lr self - min_lr self) * (1 + cos a) / 2))
      end
  end.

(** The closed form the specification gives for the returned rate. *)
Definition spec_rate (self : t) (iteration : Z) : R :=
  min_lr self
  + (max_lr self - min_lr self)
    * (1 + cos (PI * IZR (iteration mod warmup_steps self)
                / IZR (warmup_steps self))) / 2.

End CosineAnnealingWarmRestarts.

(** ** ExponentialScheduler *)

Module ExponentialScheduler.

Record t : Type := mk {
  max_lr : R;
  gamma : R
}.

Definition __call__ (self : t) (iteration : Z) : result R :=
  p <- py_pow (gamma self) iteration ;;
  Ok (max_lr self * p).

End ExponentialScheduler.

(** ** ConstantLR *)

Module ConstantLR.

Record t : Type := mk {
  max_lr : R
}.

Definition __call__ (self : t) (iteration : Z) : result R :=
  Ok (max_lr self).

End ConstantLR.

(** ** Float powers

    [x ** y] with a float exponent is a float, except for a negative base
    with an exponent that is not a whole number: Python then answers with
    the principal complex power, [|x|^y * (cos (pi*y) + i sin (pi*y))]. *)

Inductive pynum : Type :=
| PyFloat (x : R)
| PyComplex (re im : R).

Definition py_fpow (x y : R) : result pynum :=
  if Rlt_dec 0 x then Ok (PyFloat (Rpower x y))
  else if Req_dec_T x 0 then
    if Req_dec_T y 0 then Ok (PyFloat 1)
    else if Rlt_dec y 0 then Raise ZeroDivisionError
    else Ok (PyFloat 0)
  else if Req_dec_T y (IZR (Zfloor y)) then
    Ok (PyFloat (powerRZ x (Zfloor y)))
  else
    Ok (PyComplex (Rpower (- x) y * cos (PI * y))
                  (Rpower (- x) y * sin (PI * y))).

(** [a * z] for a float [a]. *)
Definition py_scale (a : R) (z : pynum) : pynum :=
  match z with
  | PyFloat x => PyFloat (a * x)
  | PyComplex re im => PyComplex (a * re) (a * im)
  end.

(** [z + b] for a float [b]. *)
Definition py_shift (z : pynum) (b : R) : pynum :=
  match z with
  | PyFloat x => PyFloat (x + b)
  | PyComplex re im => PyComplex (re + b) im
  end.

(** ** PolynomialLR *)

Module PolynomialLR.

Record t : Type := mk {
  max_lr : R;
  min_lr : R;
  max_iters : Z;
  power : R
}.

Definition __call__ (self : t) (iteration : Z) : result pynum :=
  q <- truediv (IZR iteration) (IZR (max_iters self)) ;;
  p <- py_fpow (1 - q) (power self) ;;
  Ok (py_shift (py_scale (max_lr self - min_lr self) p) (min_lr self)).

End PolynomialLR.

(** ** Restart cycles

    The total length of the first [k] restart cycles,
    [w + w*T_mult + ... + w*T_mult^(k-1)]. *)

Fixpoint cycles_total (w T_mult : Z) (k : nat) : Z :=
  match k with
  | O => 0
  | S k' => w + T_mult * cycles_total w T_mult k'
  end.

(** * Properties *)

(** ** Facts about the primitives *)

Section Primitives.

Lemma truediv_ok (x y : R) : y <> 0 -> truediv x y = Ok (x / y).
Proof.
  intros Hy. unfold truediv.
  destruct (Req_dec_T y 0) as [E | _]; [contradiction | reflexivity].
Qed.

Lemma truediv_zero (x : R) : truediv x 0 = Raise ZeroDivisionError.
Proof.
  unfold truediv.
  destruct (Req_dec_T 0 0) as [_ | N]; [reflexivity | now elim N].
Qed.

Lemma truediv_int (x : R) (b : Z) :
  b <> 0%Z -> truediv x (IZR b) = Ok (x / IZR b).
Proof.
  intros Hb. apply truediv_ok. intros E. apply Hb. now apply eq_IZR_R0.
Qed.

Lemma floordiv_ok (a b : Z) : b <> 0%Z -> floordiv a b = Ok (a / b)%Z.
Proof.
  intros Hb. unfold floordiv.
  destruct (Z.eqb_spec b 0); [contradiction | reflexivity].
Qed.

Lemma pymod_ok (a b : Z) : b <> 0%Z -> pymod a b = Ok (a mod b)%Z.
Proof.
  intros Hb. unfold pymod.
  destruct (Z.eqb_spec b 0); [contradiction | reflexivity].
Qed.

Lemma py_pow_nonneg (x : R) (n : Z) :
  (0 <= n)%Z -> py_pow x n = Ok (x ^ Z.to_nat n).
Proof.
  intros Hn. unfold py_pow.
  destruct (Z.ltb_spec n 0) as [Hlt | _]; [lia |].
  f_equal. destruct n as [| p | p]; simpl; [reflexivity | reflexivity | lia].
Qed.

Lemma py_le_true (x y : R) : x <= y -> py_le x y = true.
Proof.
  intros H. unfold py_le. destruct (Rle_dec x y); [reflexivity | contradiction].
Qed.

Lemma py_le_false (x y : R) : y < x -> py_le x y = false.
Proof.
  intros H. unfold py_le. destruct (Rle_dec x y); [lra | reflexivity].
Qed.



End Primitives.

(** ** CosineScheduler *)

Section Cosine.

Import CosineScheduler.

Variable self : CosineScheduler.t.

Lemma decay_ratio_in_range (iteration : Z) :
  (warmup_iters self < max_iters self)%Z ->
  (warmup_iters self <= iteration <= max_iters self)%Z ->
  exists r, decay_ratio self iteration = Ok r /\ 0 <= r <= 1.
Proof.
  intros Hcfg [Hlo Hhi].
  exists (IZR (iteration - warmup_iters self)
          / IZR (max_iters self - warmup_iters self)).
  split.
  - unfold decay_ratio. apply truediv_int. lia.
  - assert (Hd : 0 < IZR (max_iters self - warmup_iters self))
      by (apply IZR_lt; lia).
    assert (Hn : 0 <= IZR (iteration - warmup_iters self))
      by (apply IZR_le; lia).
    assert (Hle : IZR (iteration - warmup_iters self)
                  <= IZR (max_iters self - warmup_iters self))
      by (apply IZR_le; lia).
    split.
    + apply Rmult_le_pos; [exact Hn | left; now apply Rinv_0_lt_compat].
    + apply (Rmult_le_reg_r (IZR (max_iters self - warmup_iters self)));
        [exact Hd |].
      unfold Rdiv. rewrite Rmult_assoc, Rinv_l by lra. lra.
Qed.

Lemma call_warmup (iteration : Z) :
  (iteration < warmup_iters self)%Z -> warmup_iters self <> 0%Z ->
  __call__ self iteration
  = Ok (max_lr self * IZR iteration / IZR (warmup_iters self)).
Proof.
  intros Hlt Hnz. unfold __call__.
  destruct (Z.ltb_spec iteration (warmup_iters self)); [| lia].
  now apply truediv_int.
Qed.

Lemma call_after (iteration : Z) :
  (warmup_iters self <= iteration)%Z -> (max_iters self < iteration)%Z ->
  __call__ self iteration = Ok (min_lr self).
Proof.
  intros Hw Hm. unfold __call__.
  destruct (Z.ltb_spec iteration (warmup_iters self)); [lia |].
  destruct (Z.gtb_spec iteration (max_iters self)); [reflexivity | lia].
Qed.

Lemma call_middle (iteration : Z) :
  (warmup_iters self < max_iters self)%Z ->
  (warmup_iters self <= iteration <= max_iters self)%Z ->
  __call__ self iteration
  = Ok (min_lr self
        + 0.5 * (1.0 + cos (PI * (IZR (iteration - warmup_iters self)
                                  / IZR (max_iters self - warmup_iters self))))
          * (max_lr self - min_lr self)).
Proof.
  intros Hcfg Hrange.
  destruct (decay_ratio_in_range iteration Hcfg Hrange) as (r & Hr & Hr0 & Hr1).
  unfold __call__.
  destruct (Z.ltb_spec iteration (warmup_iters self)); [lia |].
  destruct (Z.gtb_spec iteration (max_iters self)); [lia |].
  rewrite Hr. cbn [bind].
  rewrite (py_le_true 0 r Hr0), (py_le_true r 1 Hr1). cbn.
  unfold decay_ratio in Hr. rewrite truediv_int in Hr by lia.
  injection Hr as <-. reflexivity.
Qed.


(** C4: with [warmup_iters < max_iters], whenever the middle branch is
    reached ([warmup_iters <= t <= max_iters]) the decay ratio is computed
    and lies in [[0,1]], so the assertion passes; and the call returns a
    rate, without raising, at every non-negative iteration. *)
Theorem cosine_assertion_holds (t : Z) :
  (warmup_iters self < max_iters self)%Z -> (0 <= t)%Z ->
  ((warmup_iters self <= t <= max_iters self)%Z ->
     exists r, decay_ratio self t = Ok r /\ 0 <= r <= 1
               /\ py_assert (py_le 0 r && py_le r 1) = Ok tt)
  /\ exists v, __call__ self t = Ok v.
Proof.
  intros Hcfg Ht. split.
  - intros Hrange.
    destruct (decay_ratio_in_range t Hcfg Hrange) as (r & Hr & Hr0 & Hr1).
    exists r. repeat split; try assumption.
    now rewrite (py_le_true 0 r Hr0), (py_le_true r 1 Hr1).
  - destruct (Z_lt_le_dec t (warmup_iters self)) as [Hlt | Hge].
    + eexists. apply call_warmup; lia.
    + destruct (Z_lt_le_dec (max_iters self) t) as [Hgt | Hle].
      * eexists. now apply call_after.
      * eexists. apply call_middle; lia.
Qed.

End Cosine.


Lemma cosine_assertion_holds_witness :
  let s := CosineScheduler.mk 3e-4 3e-5 1000 100000 in
  ((1000 <= 2000 <= 100000)%Z ->
     exists r, CosineScheduler.decay_ratio s 2000 = Ok r /\ 0 <= r <= 1
               /\ py_assert (py_le 0 r && py_le r 1) = Ok tt)
  /\ exists v, CosineScheduler.__call__ s 2000 = Ok v.
Proof.
  intros s. apply (cosine_assertion_holds s 2000); simpl; lia.
Defined.

(** ** Construction *)

Section Construction.

(** C2, as stated, fails: a Cosine configuration with
    [max_iters < warmup_iters] and a MultiStep configuration without
    milestones are both constructed, no error is raised. *)
Lemma construction_accepts_inconsistent :
  (500 < 1000)%Z
  /\ CosineScheduler.__init__ 3e-4 3e-5 1000 500
     = Ok (CosineScheduler.mk 3e-4 3e-5 1000 500)
  /\ MultiStepLR.__init__ 3e-4 100000 0.1 []
     = Ok (MultiStepLR.mk 3e-4 100000 0.1 [])
  /\ ~ (exists e, CosineScheduler.__init__ 3e-4 3e-5 1000 500 = Raise e)
  /\ ~ (exists e, MultiStepLR.__init__ 3e-4 100000 0.1 [] = Raise e).
Proof.
  split; [lia |]. split; [reflexivity |]. split; [reflexivity |].
  split; intros [e He]; discriminate He.
Qed.

Lemma multistep_no_milestones (s : MultiStepLR.t) (t : Z) :
  MultiStepLR.milestones s = [] ->
  MultiStepLR.__call__ s t = Ok (MultiStepLR.max_lr s).
Proof.
  intros E. unfold MultiStepLR.__call__. rewrite E. cbn.
  f_equal. lra.
Qed.

(** C2, amended: construction accepts every configuration.  What an
    inconsistent configuration does is seen at query time only: Cosine
    with [max_iters = warmup_iters] raises [ZeroDivisionError] at
    [t = warmup_iters]; Cosine with [max_iters < warmup_iters] never
    raises for [t >= 0] (warmup ramp below [warmup_iters], [min_lr] from
    there on); MultiStep without milestones returns [max_lr]. *)
Theorem construction_never_rejects :
  (forall max_lr min_lr warmup_iters max_iters,
     CosineScheduler.__init__ max_lr min_lr warmup_iters max_iters
     = Ok (CosineScheduler.mk max_lr min_lr warmup_iters max_iters))
  /\ (forall max_lr max_iters gamma milestones,
        MultiStepLR.__init__ max_lr max_iters gamma milestones
        = Ok (MultiStepLR.mk max_lr max_iters gamma milestones))
  /\ (forall s,
        CosineScheduler.max_iters s = CosineScheduler.warmup_iters s ->
        CosineScheduler.__call__ s (CosineScheduler.warmup_iters s)
        = Raise ZeroDivisionError)
  /\ (forall s t,
        (CosineScheduler.max_iters s < CosineScheduler.warmup_iters s)%Z ->
        (0 <= t)%Z ->
        CosineScheduler.__call__ s t
        = Ok (if (t <? CosineScheduler.warmup_iters s)%Z
              then CosineScheduler.max_lr s * IZR t
                   / IZR (CosineScheduler.warmup_iters s)
              else CosineScheduler.min_lr s))
  /\ (forall s t,
        MultiStepLR.milestones s = [] ->
        MultiStepLR.__call__ s t = Ok (MultiStepLR.max_lr s)).
Proof.
  split; [reflexivity |]. split; [reflexivity |].
  split; [| split].
  - intros s E. unfold CosineScheduler.__call__, CosineScheduler.decay_ratio.
    rewrite Z.ltb_irrefl, E.
    destruct (Z.gtb_spec (CosineScheduler.warmup_iters s)
                         (CosineScheduler.warmup_iters s)); [lia |].
    rewrite Z.sub_diag, truediv_zero. reflexivity.
  - intros s t Hcfg Ht.
    destruct (Z.ltb_spec t (CosineScheduler.warmup_iters s)) as [Hlt | Hge].
    + apply call_warmup; lia.
    + apply call_after; lia.
  - exact multistep_no_milestones.
Qed.

Lemma construction_never_rejects_witness :
  CosineScheduler.__call__ (CosineScheduler.mk 3e-4 3e-5 1000 1000) 1000
  = Raise ZeroDivisionError
  /\ CosineScheduler.__call__ (CosineScheduler.mk 3e-4 3e-5 1000 500) 700
     = Ok (3e-4 * 700 / 1000)
  /\ CosineScheduler.__call__ (CosineScheduler.mk 3e-4 3e-5 1000 500) 1000
     = Ok 3e-5
  /\ MultiStepLR.__call__ (MultiStepLR.mk 3e-4 100000 0.1 []) 7 = Ok 3e-4.
Proof.
  destruct construction_never_rejects as (_ & _ & Hzero & Hlow & Hempty).
  split; [| split; [| split]].
  - apply (Hzero (CosineScheduler.mk 3e-4 3e-5 1000 1000)). reflexivity.
  - apply (Hlow (CosineScheduler.mk 3e-4 3e-5 1000 500) 700%Z); simpl; lia.
  - apply (Hlow (CosineScheduler.mk 3e-4 3e-5 1000 500) 1000%Z); simpl; lia.
  - apply (Hempty (MultiStepLR.mk 3e-4 100000 0.1 []) 7%Z). reflexivity.
Defined.

End Construction.

(** ** StepLR *)

Section Step.

Import StepLR.

Variable self : StepLR.t.

Lemma step_call_on_interval (k t : Z) :
  (1 <= max_iters self)%Z -> (0 <= k)%Z ->
  (k * max_iters self <= t < (k + 1) * max_iters self)%Z ->
  __call__ self t = Ok (max_lr self * gamma self ^ Z.to_nat k).
Proof.
  intros Hm Hk Ht. unfold __call__.
  rewrite floordiv_ok by lia. cbn [bind].
  assert (Hq : (t / max_iters self)%Z = k).
  { symmetry. apply (Z.div_unique t (max_iters self) k (t - k * max_iters self));
      [left |]; lia. }
  rewrite Hq, py_pow_nonneg by lia. reflexivity.
Qed.


End Step.


(** ** MultiStepLR *)

Section MultiStep.

Import MultiStepLR.

Lemma fold_count_shift (f : Z -> bool) (l : list Z) (acc : Z) :
  fold_left (fun a (b : bool) => (a + (if b then 1 else 0))%Z) (map f l) acc
  = (acc + Z.of_nat (length (filter f l)))%Z.
Proof.
  revert acc. induction l as [| m l IH]; intros acc; simpl.
  - lia.
  - rewrite IH. destruct (f m); simpl length; lia.
Qed.

Lemma py_sum_reached (t : Z) (ms : list Z) :
  py_sum (map (fun m => (t >=? m)%Z) ms) = Z.of_nat (reached t ms).
Proof.
  unfold py_sum, reached. rewrite fold_count_shift. simpl.
  f_equal. f_equal. apply filter_ext. intros m. apply Z.geb_leb.
Qed.

Lemma multistep_call (s : MultiStepLR.t) (t : Z) :
  __call__ s t = Ok (max_lr s * gamma s ^ reached t (milestones s)).
Proof.
  unfold __call__. rewrite py_sum_reached, py_pow_nonneg by lia.
  rewrite Nat2Z.id. reflexivity.
Qed.


End MultiStep.


(** ** LinearLR *)

Section Linear.

Import LinearLR.

Lemma linear_call (s : LinearLR.t) (t : Z) :
  max_iters s <> 0%Z ->
  __call__ s t = Ok (max_lr s * (1 - IZR t / IZR (max_iters s))).
Proof.
  intros Hm. unfold __call__. rewrite truediv_int by assumption. reflexivity.
Qed.

(** C9: with [max_lr = 1.0] and [max_iters = 100] the rates at 0, 100 and
    50 are 1.0, 0.0 and 0.5; and whenever [max_lr > 0], [max_iters >= 1]
    and [t > max_iters] the rate is strictly negative. *)
Theorem linear_values_and_sign :
  (let s := mk 1.0 100 in
   __call__ s 0 = Ok 1.0 /\ __call__ s 100 = Ok 0.0 /\ __call__ s 50 = Ok 0.5)
  /\ (forall s t,
        0 < max_lr s -> (1 <= max_iters s)%Z -> (max_iters s < t)%Z ->
        exists r, __call__ s t = Ok r /\ r < 0).
Proof.
  split.
  - cbv zeta. rewrite !linear_call by (simpl; lia). cbn.
    repeat split; f_equal; lra.
  - intros s t Hlr Hm Ht. rewrite linear_call by lia.
    eexists. split; [reflexivity |].
    assert (Hpos : 0 < IZR (max_iters s)) by (apply IZR_lt; lia).
    assert (Hlt : IZR (max_iters s) < IZR t) by (apply IZR_lt; lia).
    assert (Hq : 1 < IZR t / IZR (max_iters s)).
    { apply (Rmult_lt_reg_r (IZR (max_iters s))); [exact Hpos |].
      unfold Rdiv. rewrite Rmult_assoc, Rinv_l by lra. lra. }
    nra.
Qed.

End Linear.

Lemma linear_values_and_sign_witness :
  0 < 3e-4 /\ exists r, LinearLR.__call__ (LinearLR.mk 3e-4 100) 101 = Ok r /\ r < 0.
Proof.
  split; [lra |].
  apply (proj2 linear_values_and_sign (LinearLR.mk 3e-4 100) 101%Z); simpl;
    [lra | lia | lia].
Defined.

(** ** CyclicLR *)

Section Cyclic.

Import CyclicLR.

Variable self : CyclicLR.t.

Hypothesis max_iters_pos : (1 <= max_iters self)%Z.








End Cyclic.


(** ** OneCycleLR *)

Section OneCycle.

Import OneCycleLR.

Variable self : OneCycleLR.t.

Hypothesis pct_start_range : 0 < pct_start self < 1.
Hypothesis max_iters_pos : (1 <= max_iters self)%Z.

Lemma onecycle_IZR_max_iters_pos : 0 < IZR (max_iters self).
Proof. apply IZR_lt. lia. Qed.




Lemma onecycle_call_falling (t : Z) :
  pct_start self < IZR t / IZR (max_iters self) ->
  __call__ self t = falling self (IZR t).
Proof.
  intros Hlt. unfold __call__. rewrite truediv_int by lia. cbn [bind].
  now rewrite py_le_false.
Qed.


End OneCycle.


(** ** CosineAnnealingWarmRestarts *)

Section WarmRestarts.

Import CosineAnnealingWarmRestarts.

(** Each pass removes at least one iteration, so [iteration] passes suffice. *)
Lemma while_loop_terminates (fuel : nat) :
  forall T_mult iteration T_i,
    (1 <= T_mult)%Z -> (1 <= T_i)%Z -> (0 <= iteration)%Z ->
    (Z.to_nat iteration <= fuel)%nat ->
    exists r, while_loop fuel T_mult iteration T_i = Some r.
Proof.
  induction fuel as [| fuel IH]; intros T_mult iteration T_i Hmult HT Hit Hfuel;
    simpl; destruct (Z.geb_spec iteration T_i) as [Hge | Hlt];
    try (eexists; reflexivity).
  - lia.
  - apply IH; nia.
Qed.

(** More fuel does not change the outcome of a loop that has exited. *)
Lemma while_loop_more_fuel (fuel : nat) :
  forall T_mult iteration T_i r,
    while_loop fuel T_mult iteration T_i = Some r ->
    while_loop (S fuel) T_mult iteration T_i = Some r.
Proof.
  induction fuel as [| fuel IH]; intros T_mult iteration T_i r H.
  - simpl in *. destruct (iteration >=? T_i)%Z; [discriminate | assumption].
  - cbn [while_loop] in H. cbn [while_loop].
    destruct (iteration >=? T_i)%Z; [| assumption].
    apply IH in H. exact H.
Qed.

(** With [T_mult = 0] the cycle length becomes 0 and the loop runs on. *)
Lemma while_loop_zero_cycle (fuel : nat) :
  forall iteration, (0 <= iteration)%Z -> while_loop fuel 0 iteration 0 = None.
Proof.
  induction fuel as [| fuel IH]; intros iteration Hit; simpl;
    destruct (Z.geb_spec iteration 0) as [_ | Hlt]; try lia.
  - reflexivity.
  - apply IH. lia.
Qed.

Variable self : CosineAnnealingWarmRestarts.t.

Lemma call_returns_spec (fuel : nat) (t : Z) (v : result R) :
  warmup_steps self <> 0%Z ->
  __call__ fuel self t = Some v -> v = Ok (spec_rate self t).
Proof.
  intros Hw. unfold __call__. rewrite pymod_ok by assumption.
  destruct (while_loop fuel (T_mult self) t (warmup_steps self));
    [| discriminate].
  rewrite truediv_int by assumption. cbn [bind].
  intros E. injection E as <-. reflexivity.
Qed.

Lemma call_enough_fuel (fuel : nat) (t : Z) :
  (1 <= warmup_steps self)%Z -> (1 <= T_mult self)%Z -> (0 <= t)%Z ->
  (Z.to_nat t <= fuel)%nat ->
  __call__ fuel self t = Some (Ok (spec_rate self t)).
Proof.
  intros Hw Hmult Ht Hfuel.
  destruct (while_loop_terminates fuel (T_mult self) t (warmup_steps self)
              Hmult Hw Ht Hfuel) as [r Hr].
  destruct (__call__ fuel self t) as [v |] eqn:E.
  - f_equal. apply (call_returns_spec fuel t); [lia | exact E].
  - unfold __call__ in E. rewrite pymod_ok, Hr in E by lia. discriminate E.
Qed.

Lemma spec_rate_period (t : Z) :
  warmup_steps self <> 0%Z ->
  spec_rate self (t + warmup_steps self) = spec_rate self t.
Proof.
  intros Hw. unfold spec_rate.
  replace (t + warmup_steps self)%Z with (t + 1 * warmup_steps self)%Z by lia.
  now rewrite Z.mod_add.
Qed.

(** C1: with [warmup_steps >= 1], [T_mult >= 1] and [t >= 0], the call
    returns, given [t] units of fuel or more, exactly
    [min_lr + (max_lr - min_lr) * (1 + cos (pi * (t mod warmup_steps)
    / warmup_steps)) / 2]; whatever the loop did, a call that returns
    returns that value; and the rate has period [warmup_steps] (for
    every [T_mult >= 1], [T_mult = 1] included). *)
Theorem warm_restarts_closed_form (t : Z) :
  (1 <= warmup_steps self)%Z -> (1 <= T_mult self)%Z -> (0 <= t)%Z ->
  (forall fuel, (Z.to_nat t <= fuel)%nat ->
     __call__ fuel self t = Some (Ok (spec_rate self t)))
  /\ (forall fuel v, __call__ fuel self t = Some v -> v = Ok (spec_rate self t))
  /\ (forall fuel, (Z.to_nat (t + warmup_steps self) <= fuel)%nat ->
        __call__ fuel self (t + warmup_steps self) = __call__ fuel self t
        /\ __call__ fuel self t = Some (Ok (spec_rate self t))).
Proof.
  intros Hw Hmult Ht. split; [| split].
  - intros fuel Hfuel. now apply call_enough_fuel.
  - intros fuel v. apply call_returns_spec. lia.
  - intros fuel Hfuel.
    rewrite (call_enough_fuel fuel (t + warmup_steps self)) by lia.
    rewrite (call_enough_fuel fuel t) by lia.
    rewrite spec_rate_period by lia. split; reflexivity.
Qed.

(** C10: with [warmup_steps >= 1] and [T_mult >= 1] the loop exits
    within [t] passes for every [t >= 0], and the call returns a rate;
    the precondition matters: with [T_mult = 0] the loop never exits
    once [t >= warmup_steps]. *)
Theorem warm_restarts_terminates (t : Z) :
  (1 <= warmup_steps self)%Z ->
  ((1 <= T_mult self)%Z -> (0 <= t)%Z ->
     (exists r, while_loop (Z.to_nat t) (T_mult self) t (warmup_steps self)
                = Some r)
     /\ exists v, forall fuel, (Z.to_nat t <= fuel)%nat ->
                    __call__ fuel self t = Some (Ok v))
  /\ (T_mult self = 0%Z -> (warmup_steps self <= t)%Z ->
        forall fuel, __call__ fuel self t = None).
Proof.
  intros Hw. split.
  - intros Hmult Ht. split.
    + apply while_loop_terminates; lia.
    + exists (spec_rate self t). intros fuel Hfuel.
      now apply call_enough_fuel.
  - intros Hmult Ht fuel. unfold __call__.
    rewrite pymod_ok, Hmult by lia. cbv zeta.
    destruct fuel as [| fuel]; simpl;
      destruct (Z.geb_spec t (warmup_steps self)) as [_ | Hlt]; try lia.
    + reflexivity.
    + rewrite Z.mul_0_r, while_loop_zero_cycle by lia. reflexivity.
Qed.

End WarmRestarts.

Lemma warm_restarts_closed_form_witness :
  let s := CosineAnnealingWarmRestarts.mk 3e-4 3e-5 10 2 in
  (forall fuel, (Z.to_nat 25 <= fuel)%nat ->
     CosineAnnealingWarmRestarts.__call__ fuel s 25
     = Some (Ok (CosineAnnealingWarmRestarts.spec_rate s 25)))
  /\ (forall fuel v, CosineAnnealingWarmRestarts.__call__ fuel s 25 = Some v ->
        v = Ok (CosineAnnealingWarmRestarts.spec_rate s 25))
  /\ (forall fuel, (Z.to_nat (25 + 10) <= fuel)%nat ->
        CosineAnnealingWarmRestarts.__call__ fuel s (25 + 10)
        = CosineAnnealingWarmRestarts.__call__ fuel s 25
        /\ CosineAnnealingWarmRestarts.__call__ fuel s 25
           = Some (Ok (CosineAnnealingWarmRestarts.spec_rate s 25))).
Proof.
  intros s. apply (warm_restarts_closed_form s 25); simpl; lia.
Defined.

Lemma warm_restarts_terminates_witness :
  (exists r, CosineAnnealingWarmRestarts.while_loop (Z.to_nat 25) 2 25 10 = Some r)
  /\ (forall fuel,
        CosineAnnealingWarmRestarts.__call__ fuel
          (CosineAnnealingWarmRestarts.mk 3e-4 3e-5 10 0) 25 = None).
Proof.
  split.
  - apply (warm_restarts_terminates
             (CosineAnnealingWarmRestarts.mk 3e-4 3e-5 10 2) 25); simpl; lia.
  - apply (warm_restarts_terminates
             (CosineAnnealingWarmRestarts.mk 3e-4 3e-5 10 0) 25); simpl; lia.
Defined.

(** The loop on concrete inputs: with [T_mult = 2] and [t = 25] it exits
    after one pass with 15 iterations left in a cycle of length 20, while
    the rate is computed from [25 mod 10 = 5]; with [T_mult = 1] the
    remaining count and [t mod warmup_steps] coincide. *)
Example while_loop_doubling :
  CosineAnnealingWarmRestarts.while_loop 25 2 25 10 = Some (15, 20)%Z.
Proof. reflexivity. Qed.

Example while_loop_fixed_period :
  CosineAnnealingWarmRestarts.while_loop 25 1 25 10 = Some (5, 10)%Z.
Proof. reflexivity. Qed.

Example while_loop_out_of_fuel :
  CosineAnnealingWarmRestarts.while_loop 1 1 25 10 = None.
Proof. reflexivity. Qed.

(** * Further properties of the schedulers *)

(** ** Integer powers *)

Section IntegerPowers.

Lemma py_pow_ok (x : R) (n : Z) :
  x <> 0 \/ (0 <= n)%Z -> py_pow x n = Ok (powerRZ x n).
Proof.
  intros H. unfold py_pow.
  destruct (Z.ltb_spec n 0) as [Hlt | _]; [| reflexivity].
  destruct (Req_dec_T x 0) as [E | _]; [| reflexivity].
  destruct H as [H | H]; [contradiction | lia].
Qed.



Lemma pow_le_one (g : R) (n : nat) : 0 <= g <= 1 -> 0 <= g ^ n <= 1.
Proof.
  intros Hg. split.
  - apply pow_le. lra.
  - rewrite <- (pow1 n). now apply pow_incr.
Qed.

Lemma pow_antitone (g : R) (m n : nat) :
  0 <= g <= 1 -> (m <= n)%nat -> g ^ n <= g ^ m.
Proof.
  intros Hg Hmn. replace n with (m + (n - m))%nat by lia.
  rewrite pow_add.
  pose proof (pow_le_one g m Hg). pose proof (pow_le_one g (n - m) Hg). nra.
Qed.

End IntegerPowers.

(** ** ExponentialScheduler *)

Section Exponential.

Import ExponentialScheduler.

Variable self : ExponentialScheduler.t.

Lemma exponential_call (t : Z) :
  (0 <= t)%Z -> __call__ self t = Ok (max_lr self * gamma self ^ Z.to_nat t).
Proof.
  intros Ht. unfold __call__. now rewrite py_pow_nonneg.
Qed.



(** X3: with [0 <= gamma <= 1] and [max_lr >= 0] the exponential schedule
    never increases and stays inside [[0, max_lr]]. *)
Theorem exponential_decays (t t' : Z) :
  0 <= gamma self <= 1 -> 0 <= max_lr self ->
  (0 <= t <= t')%Z ->
  exists r r', __call__ self t = Ok r /\ __call__ self t' = Ok r'
               /\ 0 <= r' /\ r' <= r /\ r <= max_lr self.
Proof.
  intros Hg Hlr Ht.
  exists (max_lr self * gamma self ^ Z.to_nat t),
         (max_lr self * gamma self ^ Z.to_nat t').
  rewrite !exponential_call by lia.
  pose proof (pow_le_one (gamma self) (Z.to_nat t) Hg).
  pose proof (pow_le_one (gamma self) (Z.to_nat t') Hg).
  assert (gamma self ^ Z.to_nat t' <= gamma self ^ Z.to_nat t)
    by (apply pow_antitone; [assumption | lia]).
  repeat split; nra.
Qed.

End Exponential.



Lemma exponential_decays_witness :
  let s := ExponentialScheduler.mk 3e-4 0.1 in
  exists r r', ExponentialScheduler.__call__ s 2 = Ok r
               /\ ExponentialScheduler.__call__ s 5 = Ok r'
               /\ 0 <= r' /\ r' <= r /\ r <= 3e-4.
Proof.
  intros s. apply (exponential_decays s 2 5); simpl; [lra | lra | lia].
Defined.

(** ** StepLR, beyond the step intervals *)

Section StepMore.

Import StepLR.

(** X4: a step schedule with step size 1 is the exponential schedule, at
    every iteration (negative ones and errors included). *)
Theorem step_size_one_is_exponential (lr g : R) (t : Z) :
  __call__ (mk lr 1 g) t
  = ExponentialScheduler.__call__ (ExponentialScheduler.mk lr g) t.
Proof.
  unfold __call__, ExponentialScheduler.__call__.
  cbn [max_iters gamma max_lr ExponentialScheduler.gamma
       ExponentialScheduler.max_lr].
  rewrite floordiv_ok by lia. cbn [bind]. now rewrite Z.div_1_r.
Qed.


End StepMore.


(** ** Schedules that degenerate to a constant *)

Section GammaOne.

(** X6: with [gamma = 1] the exponential schedule, the step schedule (for
    a non-zero step size) and the multi-step schedule all are the
    constant schedule. *)
Theorem gamma_one_is_constant (lr : R) (t : Z) :
  ExponentialScheduler.__call__ (ExponentialScheduler.mk lr 1) t
  = ConstantLR.__call__ (ConstantLR.mk lr) t
  /\ (forall m, m <> 0%Z ->
        StepLR.__call__ (StepLR.mk lr m 1) t
        = ConstantLR.__call__ (ConstantLR.mk lr) t)
  /\ (forall m ms,
        MultiStepLR.__call__ (MultiStepLR.mk lr m 1 ms) t
        = ConstantLR.__call__ (ConstantLR.mk lr) t).
Proof.
  unfold ConstantLR.__call__. cbn [ConstantLR.max_lr]. repeat split.
  - unfold ExponentialScheduler.__call__.
    cbn [ExponentialScheduler.gamma ExponentialScheduler.max_lr].
    rewrite py_pow_ok by (left; lra). cbn [bind].
    rewrite powerRZ_R1. f_equal. ring.
  - intros m Hm. unfold StepLR.__call__.
    cbn [StepLR.max_iters StepLR.gamma StepLR.max_lr].
    rewrite floordiv_ok by assumption. cbn [bind].
    rewrite py_pow_ok by (left; lra). cbn [bind].
    rewrite powerRZ_R1. f_equal. ring.
  - intros m ms. rewrite multistep_call.
    cbn [MultiStepLR.max_lr MultiStepLR.gamma MultiStepLR.milestones].
    rewrite pow1. f_equal. ring.
Qed.

End GammaOne.

Lemma gamma_one_is_constant_witness :
  StepLR.__call__ (StepLR.mk 3e-4 10 1) 25
  = ConstantLR.__call__ (ConstantLR.mk 3e-4) 25.
Proof.
  apply (proj1 (proj2 (gamma_one_is_constant 3e-4 25)) 10%Z). lia.
Defined.

(** ** MultiStepLR, beyond the closed form *)

Section MultiStepMore.

Import MultiStepLR.

Lemma reached_perm (t : Z) (ms ms' : list Z) :
  Permutation ms ms' -> reached t ms = reached t ms'.
Proof.
  unfold reached. intros HP.
  induction HP as [| m l l' _ IH | m m' l | l l' l'' _ IH1 _ IH2]; simpl.
  - reflexivity.
  - destruct (m <=? t)%Z; simpl; now rewrite IH.
  - destruct (m <=? t)%Z, (m' <=? t)%Z; reflexivity.
  - now rewrite IH1.
Qed.

Lemma reached_mono (t t' : Z) (ms : list Z) :
  (t <= t')%Z -> (reached t ms <= reached t' ms)%nat.
Proof.
  intros Ht. unfold reached. induction ms as [| m ms IH]; simpl; [lia |].
  destruct (Z.leb_spec m t), (Z.leb_spec m t'); simpl; lia.
Qed.

Lemma reached_none (t : Z) (ms : list Z) :
  Forall (fun m => (t < m)%Z) ms -> reached t ms = 0%nat.
Proof.
  unfold reached. induction 1 as [| m ms Hm _ IH]; simpl; [reflexivity |].
  destruct (Z.leb_spec m t); [lia | exact IH].
Qed.

Lemma reached_all (t : Z) (ms : list Z) :
  Forall (fun m => (m <= t)%Z) ms -> reached t ms = length ms.
Proof.
  unfold reached. induction 1 as [| m ms Hm _ IH]; simpl; [reflexivity |].
  destruct (Z.leb_spec m t); [simpl; now rewrite IH | lia].
Qed.

(** X7: the multi-step rate depends on the milestones as a multiset only:
    any reordering of the list gives the same rate, sorted or not. *)
Theorem multistep_order_irrelevant (lr : R) (mi : Z) (g : R)
    (ms ms' : list Z) (t : Z) :
  Permutation ms ms' ->
  __call__ (mk lr mi g ms) t = __call__ (mk lr mi g ms') t.
Proof.
  intros HP. rewrite !multistep_call. cbn [max_lr gamma milestones].
  now rewrite (reached_perm t ms ms' HP).
Qed.

(** X8: with [0 <= gamma <= 1] and [max_lr >= 0] the multi-step rate
    never increases with the iteration and stays inside [[0, max_lr]],
    for any milestone list. *)
Theorem multistep_decays (self : MultiStepLR.t) (t t' : Z) :
  0 <= gamma self <= 1 -> 0 <= max_lr self -> (t <= t')%Z ->
  exists r r', __call__ self t = Ok r /\ __call__ self t' = Ok r'
               /\ 0 <= r' /\ r' <= r /\ r <= max_lr self.
Proof.
  intros Hg Hlr Ht.
  exists (max_lr self * gamma self ^ reached t (milestones self)),
         (max_lr self * gamma self ^ reached t' (milestones self)).
  rewrite !multistep_call.
  pose proof (pow_le_one (gamma self) (reached t (milestones self)) Hg).
  pose proof (pow_le_one (gamma self) (reached t' (milestones self)) Hg).
  assert (gamma self ^ reached t' (milestones self)
          <= gamma self ^ reached t (milestones self))
    by (apply pow_antitone; [assumption | now apply reached_mono]).
  repeat split; nra.
Qed.

(** X9: before every milestone the multi-step rate is [max_lr]; once all
    milestones are passed it is [max_lr * gamma^n], [n] the length of the
    list, so a repeated milestone counts once per occurrence. *)
Theorem multistep_before_and_after (self : MultiStepLR.t) (t : Z) :
  (Forall (fun m => (t < m)%Z) (milestones self) ->
     __call__ self t = Ok (max_lr self))
  /\ (Forall (fun m => (m <= t)%Z) (milestones self) ->
        __call__ self t
        = Ok (max_lr self * gamma self ^ length (milestones self))).
Proof.
  split; intros H; rewrite multistep_call.
  - rewrite reached_none by assumption. simpl. f_equal. ring.
  - now rewrite reached_all.
Qed.

End MultiStepMore.

Lemma multistep_order_irrelevant_witness :
  MultiStepLR.__call__ (MultiStepLR.mk 3e-4 100000 0.1 [30; 10]%Z) 20
  = MultiStepLR.__call__ (MultiStepLR.mk 3e-4 100000 0.1 [10; 30]%Z) 20.
Proof.
  apply (multistep_order_irrelevant 3e-4 100000 0.1 [30; 10]%Z [10; 30]%Z 20).
  apply perm_swap.
Defined.

Lemma multistep_decays_witness :
  let s := MultiStepLR.mk 3e-4 100000 0.1 [10; 30]%Z in
  exists r r', MultiStepLR.__call__ s 5 = Ok r
               /\ MultiStepLR.__call__ s 20 = Ok r'
               /\ 0 <= r' /\ r' <= r /\ r <= 3e-4.
Proof.
  intros s. apply (multistep_decays s 5 20); simpl; [lra | lra | lia].
Defined.

Lemma multistep_before_and_after_witness :
  MultiStepLR.__call__ (MultiStepLR.mk 3e-4 100000 0.1 [10; 10]%Z) 5 = Ok 3e-4
  /\ MultiStepLR.__call__ (MultiStepLR.mk 3e-4 100000 0.1 [10; 10]%Z) 10
     = Ok (3e-4 * 0.1 ^ 2).
Proof.
  split.
  - apply (proj1 (multistep_before_and_after
                    (MultiStepLR.mk 3e-4 100000 0.1 [10; 10]%Z) 5)).
    simpl. repeat constructor.
  - apply (proj2 (multistep_before_and_after
                    (MultiStepLR.mk 3e-4 100000 0.1 [10; 10]%Z) 10)).
    simpl. repeat constructor; lia.
Defined.

(** ** MultiStepLR with equally spaced milestones *)

Section Spaced.

Variable m : Z.

Hypothesis m_pos : (1 <= m)%Z.

Lemma reached_spaced (t : Z) (k : nat) :
  (0 <= t)%Z ->
  MultiStepLR.reached t (map (fun i => (Z.of_nat i * m)%Z) (seq 1 k))
  = Nat.min k (Z.to_nat (t / m)).
Proof.
  intros Ht. unfold MultiStepLR.reached.
  pose proof (Z.div_mod t m ltac:(lia)) as Hdm.
  pose proof (Z.mod_pos_bound t m ltac:(lia)) as Hmod.
  assert (Hq : (0 <= t / m)%Z) by (apply Z.div_pos; lia).
  induction k as [| k IH]; [reflexivity |].
  rewrite seq_S, map_app, filter_app, length_app, IH.
  cbn [map filter].
  destruct (Z.leb_spec (Z.of_nat (1 + k) * m) t) as [Hle | Hgt];
    cbn [length].
  - assert (Z.of_nat (1 + k) <= t / m)%Z
      by (apply Z.div_le_lower_bound; lia).
    lia.
  - assert (t / m < Z.of_nat (1 + k))%Z
      by (apply Z.div_lt_upper_bound; lia).
    lia.
Qed.

(** X10: with milestones [m, 2m, ..., k*m] the multi-step schedule is the
    step schedule of step size [m] at every iteration below [(k+1)*m]. *)
Theorem multistep_spaced_is_step (lr : R) (mi : Z) (g : R) (k : nat) (t : Z) :
  (0 <= t < (Z.of_nat k + 1) * m)%Z ->
  MultiStepLR.__call__
    (MultiStepLR.mk lr mi g (map (fun i => (Z.of_nat i * m)%Z) (seq 1 k))) t
  = StepLR.__call__ (StepLR.mk lr m g) t.
Proof.
  intros [Ht0 Ht1].
  pose proof (Z.div_mod t m ltac:(lia)) as Hdm.
  pose proof (Z.mod_pos_bound t m ltac:(lia)) as Hmod.
  assert (Hq : (0 <= t / m)%Z) by (apply Z.div_pos; lia).
  assert (Hk : (t / m < Z.of_nat k + 1)%Z)
    by (apply Z.div_lt_upper_bound; lia).
  rewrite multistep_call.
  cbn [MultiStepLR.max_lr MultiStepLR.gamma MultiStepLR.milestones].
  rewrite reached_spaced by assumption.
  rewrite (step_call_on_interval (StepLR.mk lr m g) (t / m) t);
    cbn [StepLR.max_iters StepLR.max_lr StepLR.gamma]; try lia.
  do 3 f_equal. lia.
Qed.

End Spaced.

Lemma multistep_spaced_is_step_witness :
  MultiStepLR.__call__
    (MultiStepLR.mk 3e-4 100000 0.1
       (map (fun i => (Z.of_nat i * 10)%Z) (seq 1 2))) 25
  = StepLR.__call__ (StepLR.mk 3e-4 10 0.1) 25.
Proof.
  apply (multistep_spaced_is_step 10 ltac:(lia) 3e-4 100000 0.1 2 25).
  simpl. lia.
Defined.

(** ** LinearLR, inside the horizon *)

Section LinearMore.

Import LinearLR.

Variable self : LinearLR.t.


End LinearMore.


(** ** Float powers *)

Section FloatPowers.

Lemma py_fpow_pos (x y : R) : 0 < x -> py_fpow x y = Ok (PyFloat (Rpower x y)).
Proof.
  intros Hx. unfold py_fpow. destruct (Rlt_dec 0 x); [reflexivity | lra].
Qed.

Lemma py_fpow_zero_base (y : R) :
  py_fpow 0 y
  = if Req_dec_T y 0 then Ok (PyFloat 1)
    else if Rlt_dec y 0 then Raise ZeroDivisionError else Ok (PyFloat 0).
Proof.
  unfold py_fpow. destruct (Rlt_dec 0 0); [lra |].
  destruct (Req_dec_T 0 0) as [_ | N]; [reflexivity | now elim N].
Qed.

Lemma py_fpow_neg (x y : R) :
  x < 0 ->
  py_fpow x y
  = if Req_dec_T y (IZR (Zfloor y)) then Ok (PyFloat (powerRZ x (Zfloor y)))
    else Ok (PyComplex (Rpower (- x) y * cos (PI * y))
                       (Rpower (- x) y * sin (PI * y))).
Proof.
  intros Hx. unfold py_fpow. destruct (Rlt_dec 0 x); [lra |].
  destruct (Req_dec_T x 0); [lra | reflexivity].
Qed.

Lemma py_fpow_exp_whole (x : R) (n : Z) :
  x <> 0 \/ (0 <= n)%Z -> py_fpow x (IZR n) = Ok (PyFloat (powerRZ x n)).
Proof.
  intros H. destruct (Rtotal_order x 0) as [Hneg | [-> | Hpos]].
  - rewrite py_fpow_neg by assumption. rewrite ZfloorZ.
    destruct (Req_dec_T (IZR n) (IZR n)) as [_ | N]; [reflexivity | now elim N].
  - destruct H as [H | H]; [now elim H |].
    rewrite py_fpow_zero_base.
    destruct (Req_dec_T (IZR n) 0) as [E | N].
    + apply eq_IZR in E. subst n. reflexivity.
    + destruct (Rlt_dec (IZR n) 0) as [Hlt | _].
      * apply lt_IZR in Hlt. lia.
      * do 2 f_equal. destruct n as [| p | p]; [now elim N | | lia].
        simpl. symmetry. apply pow_i. apply Pos2Nat.is_pos.
  - rewrite py_fpow_pos by assumption. now rewrite powerRZ_Rpower.
Qed.


End FloatPowers.

(** ** PolynomialLR *)

Section Polynomial.

Import PolynomialLR.

Variable self : PolynomialLR.t.

Hypothesis max_iters_pos : (1 <= max_iters self)%Z.

(** The base of the power, [1 - t / max_iters]. *)
Let base (t : Z) : R := 1 - IZR t / IZR (max_iters self).

Lemma polynomial_call (t : Z) :
  __call__ self t
  = (p <- py_fpow (base t) (power self) ;;
     Ok (py_shift (py_scale (max_lr self - min_lr self) p) (min_lr self))).
Proof.
  unfold __call__, base. rewrite truediv_int by lia. reflexivity.
Qed.

Lemma polynomial_IZR_max_iters_pos : 0 < IZR (max_iters self).
Proof. apply IZR_lt. lia. Qed.




Lemma base_beyond (t : Z) : (max_iters self < t)%Z -> base t < 0.
Proof.
  intros Ht. pose proof polynomial_IZR_max_iters_pos as Hm.
  assert (H1 : IZR (max_iters self) < IZR t) by (apply IZR_lt; lia).
  assert (Hq : 1 < IZR t / IZR (max_iters self)).
  { apply (Rmult_lt_reg_r (IZR (max_iters self))); [exact Hm |].
    unfold Rdiv. rewrite Rmult_assoc, Rinv_l by lra. lra. }
  unfold base. lra.
Qed.



(** X14: with [max_iters >= 1] and [power = 1] the polynomial schedule
    is the straight line from [max_lr] to [min_lr], continued beyond
    [max_iters] and before 0; with [min_lr = 0] it returns what the
    linear schedule returns. *)
Theorem polynomial_power_one (t : Z) :
  power self = 1 ->
  __call__ self t
  = Ok (PyFloat ((max_lr self - min_lr self)
                 * (1 - IZR t / IZR (max_iters self)) + min_lr self))
  /\ (min_lr self = 0 ->
      exists r, LinearLR.__call__
                  (LinearLR.mk (max_lr self) (max_iters self)) t = Ok r
                /\ __call__ self t = Ok (PyFloat r)).
Proof.
  intros Hp.
  assert (E : __call__ self t
              = Ok (PyFloat ((max_lr self - min_lr self) * base t
                             + min_lr self))).
  { rewrite polynomial_call, Hp.
    rewrite (py_fpow_exp_whole (base t) 1) by (right; lia).
    cbn [bind py_scale py_shift]. do 3 f_equal. simpl. ring. }
  split; [exact E |].
  intros Hmin. rewrite linear_call by (simpl; lia).
  eexists. split; [reflexivity |]. rewrite E. simpl.
  unfold base. rewrite Hmin. do 2 f_equal. ring.
Qed.

(** X15: no clamping does not mean a negative rate: with
    [max_iters >= 1], beyond [max_iters] and for a [power] that is not a
    whole number, the polynomial schedule returns a complex number, and
    its imaginary part is not zero when [max_lr <> min_lr]. *)
Theorem polynomial_beyond_is_complex (t : Z) :
  (max_iters self < t)%Z -> power self <> IZR (Zfloor (power self)) ->
  exists re im, __call__ self t = Ok (PyComplex re im)
                /\ (max_lr self <> min_lr self -> im <> 0).
Proof.
  intros Ht Hp. pose proof (base_beyond t Ht) as Hb.
  rewrite polynomial_call, py_fpow_neg by assumption.
  destruct (Req_dec_T (power self) (IZR (Zfloor (power self))));
    [contradiction |].
  cbn. do 2 eexists. split; [reflexivity |].
  intros Hlr Him.
  assert (Hpow : 0 < Rpower (- base t) (power self)) by apply exp_pos.
  assert (Hsin : sin (PI * power self) = 0).
  { apply Rmult_integral in Him. destruct Him as [Him | Him]; [lra |].
    apply Rmult_integral in Him. destruct Him as [Him | Him]; [lra | easy]. }
  apply sin_eq_0_0 in Hsin. destruct Hsin as [k Hk].
  assert (Hpk : power self = IZR k).
  { apply (Rmult_eq_reg_l PI); [| pose proof PI_RGT_0; lra]. lra. }
  apply Hp. rewrite Hpk at 2. now rewrite ZfloorZ.
Qed.


End Polynomial.



Lemma polynomial_power_one_witness :
  PolynomialLR.__call__ (PolynomialLR.mk 3e-4 3e-5 100 1) 150
  = Ok (PyFloat ((3e-4 - 3e-5) * (1 - 150 / 100) + 3e-5)).
Proof.
  apply (polynomial_power_one (PolynomialLR.mk 3e-4 3e-5 100 1));
    simpl; [lia | reflexivity].
Defined.

Lemma polynomial_beyond_is_complex_witness :
  exists re im,
    PolynomialLR.__call__ (PolynomialLR.mk 3e-4 3e-5 100 0.5) 150
    = Ok (PyComplex re im)
    /\ (3e-4 <> 3e-5 -> im <> 0).
Proof.
  apply (polynomial_beyond_is_complex (PolynomialLR.mk 3e-4 3e-5 100 0.5));
    simpl; [lia | lia |].
  rewrite (Zfloor_eq 0 0.5) by lra. lra.
Defined.


(** ** CosineScheduler, errors and shape *)

Section CosineMore.

Import CosineScheduler.

Lemma quotient_unit (a d : R) : 0 <= a <= d -> 0 < d -> 0 <= a / d <= 1.
Proof.
  intros [Ha0 Ha1] Hd. split.
  - apply Rmult_le_pos; [exact Ha0 | left; now apply Rinv_0_lt_compat].
  - apply (Rmult_le_reg_r d); [exact Hd |].
    unfold Rdiv. rewrite Rmult_assoc, Rinv_l by lra. lra.
Qed.

Lemma quotient_mono (a b d : R) : a <= b -> 0 < d -> a / d <= b / d.
Proof.
  intros Hab Hd. apply Rmult_le_compat_r; [| exact Hab].
  left. now apply Rinv_0_lt_compat.
Qed.

Variable self : CosineScheduler.t.

(** The decay ratio as a real number. *)
Let rho (t : Z) : R :=
  IZR (t - warmup_iters self) / IZR (max_iters self - warmup_iters self).

Lemma rho_unit (t : Z) :
  (warmup_iters self < max_iters self)%Z ->
  (warmup_iters self <= t <= max_iters self)%Z -> 0 <= rho t <= 1.
Proof.
  intros Hcfg [Hlo Hhi]. unfold rho. apply quotient_unit.
  - split; apply IZR_le; lia.
  - apply IZR_lt. lia.
Qed.

(** X17: the assertion of the cosine schedule can never fail, for any
    configuration and any iteration.  The call raises exactly when
    [warmup_iters = 0] and [t < 0], or when
    [max_iters = warmup_iters = t]; the error is [ZeroDivisionError]. *)
Theorem cosine_raises_iff (t : Z) :
  ((exists e, __call__ self t = Raise e)
   <-> (warmup_iters self = 0%Z /\ (t < 0)%Z)
       \/ (max_iters self = warmup_iters self /\ t = warmup_iters self))
  /\ (forall e, __call__ self t = Raise e -> e = ZeroDivisionError).
Proof.
  destruct (Z_lt_le_dec t (warmup_iters self)) as [Hlt | Hge].
  - destruct (Z.eq_dec (warmup_iters self) 0) as [E | N].
    + assert (Hr : __call__ self t = Raise ZeroDivisionError).
      { unfold __call__.
        destruct (Z.ltb_spec t (warmup_iters self)); [| lia].
        rewrite E. apply truediv_zero. }
      rewrite Hr. split; [split |].
      * intros _. left. split; lia.
      * intros _. now exists ZeroDivisionError.
      * congruence.
    + rewrite call_warmup by assumption. split; [split |].
      * intros [e He]. discriminate He.
      * intros [[H0 _] | [_ H1]]; lia.
      * intros e He. discriminate He.
  - destruct (Z_lt_le_dec (max_iters self) t) as [Hgt | Hle].
    + rewrite call_after by assumption. split; [split |].
      * intros [e He]. discriminate He.
      * intros [[H0 H1] | [H0 H1]]; lia.
      * intros e He. discriminate He.
    + destruct (Z.eq_dec (max_iters self) (warmup_iters self)) as [E | N].
      * assert (Ht : t = warmup_iters self) by lia.
        assert (Hr : __call__ self t = Raise ZeroDivisionError).
        { unfold __call__, decay_ratio.
          destruct (Z.ltb_spec t (warmup_iters self)); [lia |].
          destruct (Z.gtb_spec t (max_iters self)); [lia |].
          rewrite E, Z.sub_diag, truediv_zero. reflexivity. }
        rewrite Hr. split; [split |].
        -- intros _. right. now split.
        -- intros _. now exists ZeroDivisionError.
        -- congruence.
      * rewrite call_middle by lia. split; [split |].
        -- intros [e He]. discriminate He.
        -- intros [[H0 H1] | [H0 H1]]; lia.
        -- intros e He. discriminate He.
Qed.


(** X19: with [warmup_iters < max_iters] and [min_lr <= max_lr] the rate
    never increases once the warmup is over. *)
Theorem cosine_decay_monotone (t t' : Z) :
  (warmup_iters self < max_iters self)%Z -> min_lr self <= max_lr self ->
  (warmup_iters self <= t <= t')%Z ->
  exists r r', __call__ self t = Ok r /\ __call__ self t' = Ok r'
               /\ r' <= r.
Proof.
  intros Hcfg Hlr [Hlo Htt].
  destruct (Z_lt_le_dec (max_iters self) t) as [Hgt | Hle].
  - rewrite !call_after by lia. do 2 eexists.
    split; [reflexivity |]. split; [reflexivity | lra].
  - rewrite (call_middle self t) by lia. fold (rho t).
    pose proof (COS_bound (PI * rho t)) as Hc.
    destruct (Z_lt_le_dec (max_iters self) t') as [Hgt' | Hle'].
    + rewrite call_after by lia. do 2 eexists.
      split; [reflexivity |]. split; [reflexivity | nra].
    + rewrite (call_middle self t') by lia. fold (rho t').
      do 2 eexists. split; [reflexivity |]. split; [reflexivity |].
      pose proof (rho_unit t Hcfg ltac:(lia)) as Hr.
      pose proof (rho_unit t' Hcfg ltac:(lia)) as Hr'.
      assert (Hrr : rho t <= rho t').
      { unfold rho. apply quotient_mono; [apply IZR_le; lia |].
        apply IZR_lt. lia. }
      pose proof PI_RGT_0 as Hpi.
      assert (Hcos : cos (PI * rho t') <= cos (PI * rho t))
        by (apply cos_decr_1; nra).
      nra.
Qed.


End CosineMore.

Lemma cosine_raises_iff_witness :
  (exists e, CosineScheduler.__call__
               (CosineScheduler.mk 3e-4 3e-5 0 100) (-1) = Raise e)
  /\ (exists e, CosineScheduler.__call__
                  (CosineScheduler.mk 3e-4 3e-5 100 100) 100 = Raise e).
Proof.
  split.
  - apply (proj1 (cosine_raises_iff (CosineScheduler.mk 3e-4 3e-5 0 100) (-1))).
    left. simpl. split; [reflexivity | lia].
  - apply (proj1 (cosine_raises_iff
                    (CosineScheduler.mk 3e-4 3e-5 100 100) 100)).
    right. simpl. split; reflexivity.
Defined.


Lemma cosine_decay_monotone_witness :
  let s := CosineScheduler.mk 3e-4 3e-5 1000 100000 in
  exists r r', CosineScheduler.__call__ s 2000 = Ok r
               /\ CosineScheduler.__call__ s 3000 = Ok r'
               /\ r' <= r.
Proof.
  intros s. apply (cosine_decay_monotone s 2000 3000); simpl; [lia | lra | lia].
Defined.


(** ** CyclicLR, the triangle *)

Section CyclicMore.

Import CyclicLR.


Variable self : CyclicLR.t.

Hypothesis max_iters_pos : (1 <= max_iters self)%Z.










End CyclicMore.



(** ** OneCycleLR, inside and beyond the cycle *)

Section OneCycleMore.

Import OneCycleLR.

Variable self : OneCycleLR.t.

Hypothesis pct_start_range : 0 < pct_start self < 1.
Hypothesis max_iters_pos : (1 <= max_iters self)%Z.


Lemma onecycle_falling_value (t : Z) :
  pct_start self < IZR t / IZR (max_iters self) ->
  __call__ self t
  = Ok (max_lr self
        - (max_lr self - min_lr self)
          * ((IZR t - pct_start self * IZR (max_iters self))
             / ((1 - pct_start self) * IZR (max_iters self)))).
Proof.
  intros Hlt. pose proof (onecycle_IZR_max_iters_pos self max_iters_pos) as Hm.
  rewrite (onecycle_call_falling self max_iters_pos) by assumption.
  unfold falling. rewrite truediv_ok by nra. reflexivity.
Qed.

(** [t / max_iters] against [pct_start], without the division. *)
Lemma quotient_le_iff (t : Z) :
  IZR t / IZR (max_iters self) <= pct_start self
  <-> IZR t <= pct_start self * IZR (max_iters self).
Proof.
  pose proof (onecycle_IZR_max_iters_pos self max_iters_pos) as Hm.
  split; intros H.
  - apply (Rmult_le_compat_r (IZR (max_iters self))) in H; [| lra].
    unfold Rdiv in H. rewrite Rmult_assoc, Rinv_l, Rmult_1_r in H by lra.
    exact H.
  - apply (Rmult_le_reg_r (IZR (max_iters self))); [exact Hm |].
    unfold Rdiv. rewrite Rmult_assoc, Rinv_l, Rmult_1_r by lra. exact H.
Qed.


(** X24: the one-cycle schedule is not clamped: with [0 < pct_start < 1],
    [max_iters >= 1] and [min_lr < max_lr], the falling line goes on
    beyond [max_iters], and the rate there is strictly below [min_lr]. *)
Theorem onecycle_beyond_below_min (t : Z) :
  min_lr self < max_lr self -> (max_iters self < t)%Z ->
  exists r, __call__ self t = Ok r /\ r < min_lr self.
Proof.
  intros Hlr Ht.
  pose proof (onecycle_IZR_max_iters_pos self max_iters_pos) as Hm.
  assert (H1 : IZR (max_iters self) < IZR t) by (apply IZR_lt; lia).
  assert (Hlt : pct_start self < IZR t / IZR (max_iters self)).
  { apply Rnot_le_lt. intros H. apply quotient_le_iff in H. nra. }
  rewrite onecycle_falling_value by assumption.
  eexists. split; [reflexivity |].
  assert (Hd : 0 < (1 - pct_start self) * IZR (max_iters self)) by nra.
  assert (Hf : 1 < (IZR t - pct_start self * IZR (max_iters self))
                   / ((1 - pct_start self) * IZR (max_iters self))).
  { apply (Rmult_lt_reg_r ((1 - pct_start self) * IZR (max_iters self)));
      [exact Hd |].
    unfold Rdiv. rewrite Rmult_assoc, Rinv_l by lra. lra. }
  nra.
Qed.

End OneCycleMore.


Lemma onecycle_beyond_below_min_witness :
  exists r, OneCycleLR.__call__ (OneCycleLR.mk 3e-4 3e-5 100 0.3) 120 = Ok r
            /\ r < 3e-5.
Proof.
  apply (onecycle_beyond_below_min (OneCycleLR.mk 3e-4 3e-5 100 0.3));
    simpl; [lra | lia | lra | lia].
Defined.

(** ** OneCycleLR with a degenerate [pct_start] *)

Section OneCycleDegenerate.

Import OneCycleLR.

Variables (lr_max lr_min : R) (m : Z).

Hypothesis m_pos : (1 <= m)%Z.

Lemma quotient_sign (t : Z) :
  (IZR t / IZR m <= 0 <-> (t <= 0)%Z) /\ (IZR t / IZR m <= 1 <-> (t <= m)%Z).
Proof.
  assert (Hm : 0 < IZR m) by (apply IZR_lt; lia).
  assert (Hinv : 0 < / IZR m) by now apply Rinv_0_lt_compat.
  assert (Hmul : IZR t / IZR m * IZR m = IZR t) by (field; lra).
  split; split; intros H.
  - apply le_IZR. nra.
  - apply IZR_le in H. unfold Rdiv. nra.
  - apply le_IZR. nra.
  - apply IZR_le in H. apply (Rmult_le_reg_r (IZR m)); [exact Hm | lra].
Qed.

(** X25: the ends of the [pct_start] range are not handled.  With
    [pct_start = 0] (and [max_iters >= 1]) the call raises
    [ZeroDivisionError] at [t <= 0], iteration 0 included, and follows
    the falling line for [t > 0]; with [pct_start = 1] it follows the
    rising line up to [max_iters] and raises [ZeroDivisionError] at
    every later iteration. *)
Theorem onecycle_degenerate_pct_start (t : Z) :
  ((t <= 0)%Z ->
     __call__ (mk lr_max lr_min m 0) t = Raise ZeroDivisionError)
  /\ ((0 < t)%Z ->
        __call__ (mk lr_max lr_min m 0) t
        = Ok (lr_max - (lr_max - lr_min) * (IZR t / IZR m)))
  /\ ((t <= m)%Z ->
        __call__ (mk lr_max lr_min m 1) t
        = Ok (lr_min + (lr_max - lr_min) * (IZR t / IZR m)))
  /\ ((m < t)%Z ->
        __call__ (mk lr_max lr_min m 1) t = Raise ZeroDivisionError).
Proof.
  assert (Hm : 0 < IZR m) by (apply IZR_lt; lia).
  destruct (quotient_sign t) as [H0 H1].
  unfold __call__, rising, falling.
  cbn [max_iters pct_start max_lr min_lr].
  rewrite truediv_int by lia. cbn [bind].
  split; [| split; [| split]]; intros Ht.
  - rewrite py_le_true by now apply H0.
    rewrite Rmult_0_l, truediv_zero. reflexivity.
  - rewrite py_le_false by (apply Rnot_le_lt; intros H; apply H0 in H; lia).
    rewrite truediv_ok by lra. cbn [bind]. do 3 f_equal. field. lra.
  - rewrite py_le_true by now apply H1.
    rewrite truediv_ok by lra. cbn [bind]. do 3 f_equal. field. lra.
  - rewrite py_le_false by (apply Rnot_le_lt; intros H; apply H1 in H; lia).
    replace ((1 - 1) * IZR m) with 0 by ring.
    rewrite truediv_zero. reflexivity.
Qed.

End OneCycleDegenerate.

Lemma onecycle_degenerate_pct_start_witness :
  OneCycleLR.__call__ (OneCycleLR.mk 3e-4 3e-5 100 0) 0
  = Raise ZeroDivisionError
  /\ OneCycleLR.__call__ (OneCycleLR.mk 3e-4 3e-5 100 1) 101
     = Raise ZeroDivisionError.
Proof.
  destruct (onecycle_degenerate_pct_start 3e-4 3e-5 100 ltac:(lia) 0)
    as (Hzero & _).
  destruct (onecycle_degenerate_pct_start 3e-4 3e-5 100 ltac:(lia) 101)
    as (_ & _ & _ & Hone).
  split; [apply Hzero | apply Hone]; lia.
Defined.

(** ** Zero step sizes *)

Section ZeroStep.

(** X26: nothing guards a zero step size: with [max_iters = 0] the step,
    linear, polynomial, cyclic and one-cycle schedules raise
    [ZeroDivisionError] at every iteration, and with [warmup_steps = 0]
    so does the warm-restarts schedule, before its loop is entered. *)
Theorem zero_step_size_raises (t : Z) :
  (forall lr g, StepLR.__call__ (StepLR.mk lr 0 g) t
                = Raise ZeroDivisionError)
  /\ (forall lr, LinearLR.__call__ (LinearLR.mk lr 0) t
                 = Raise ZeroDivisionError)
  /\ (forall lr_max lr_min p,
        PolynomialLR.__call__ (PolynomialLR.mk lr_max lr_min 0 p) t
        = Raise ZeroDivisionError)
  /\ (forall lr_max lr_min,
        CyclicLR.__call__ (CyclicLR.mk lr_max lr_min 0) t
        = Raise ZeroDivisionError)
  /\ (forall lr_max lr_min pct,
        OneCycleLR.__call__ (OneCycleLR.mk lr_max lr_min 0 pct) t
        = Raise ZeroDivisionError)
  /\ (forall lr_max lr_min T_mult fuel,
        CosineAnnealingWarmRestarts.__call__ fuel
          (CosineAnnealingWarmRestarts.mk lr_max lr_min 0 T_mult) t
        = Some (Raise ZeroDivisionError)).
Proof.
  split; [| split; [| split; [| split; [| split]]]]; intros.
  - reflexivity.
  - unfold LinearLR.__call__. cbn [LinearLR.max_iters].
    now rewrite truediv_zero.
  - unfold PolynomialLR.__call__. cbn [PolynomialLR.max_iters].
    now rewrite truediv_zero.
  - unfold CyclicLR.__call__. cbn [CyclicLR.max_iters].
    rewrite Z.mul_0_r. now rewrite truediv_zero.
  - unfold OneCycleLR.__call__. cbn [OneCycleLR.max_iters].
    now rewrite truediv_zero.
  - reflexivity.
Qed.

End ZeroStep.

(** ** CosineAnnealingWarmRestarts, what the loop computes *)

Section WarmRestartsMore.

Import CosineAnnealingWarmRestarts.

(** X27: with [T_mult = 1], [warmup_steps >= 1] and [t >= 0] the loop
    makes exactly [t // warmup_steps] passes and ends with
    [t mod warmup_steps] iterations left in a cycle of length
    [warmup_steps]: what it leaves is the [T_cur] the rate is computed
    from. *)
Theorem warm_restarts_fixed_period_loop (w t : Z) (fuel : nat) :
  (1 <= w)%Z -> (0 <= t)%Z ->
  ((Z.to_nat (t / w) <= fuel)%nat ->
     while_loop fuel 1 t w = Some ((t mod w)%Z, w))
  /\ ((fuel < Z.to_nat (t / w))%nat -> while_loop fuel 1 t w = None).
Proof.
  intros Hw. revert t. induction fuel as [| fuel IH]; intros t Ht.
  - simpl. destruct (Z.geb_spec t w) as [Hge | Hlt].
    + assert (1 <= t / w)%Z by (apply Z.div_le_lower_bound; lia).
      split; [lia | reflexivity].
    + rewrite Z.div_small, Z.mod_small by lia. split; [reflexivity | simpl; lia].
  - cbn [while_loop]. destruct (Z.geb_spec t w) as [Hge | Hlt].
    + rewrite Z.mul_1_r.
      assert (Hq : ((t - w) / w = t / w - 1)%Z).
      { replace (t - w)%Z with (t + (-1) * w)%Z by lia.
        rewrite Z.div_add by lia. lia. }
      assert (Hr : ((t - w) mod w = t mod w)%Z).
      { replace (t - w)%Z with (t + (-1) * w)%Z by lia.
        now rewrite Z.mod_add by lia. }
      assert (1 <= t / w)%Z by (apply Z.div_le_lower_bound; lia).
      destruct (IH (t - w)%Z ltac:(lia)) as [IH1 IH2].
      rewrite Hq, Hr in *. split; intros Hf; [apply IH1 | apply IH2]; lia.
    + rewrite Z.div_small, Z.mod_small by lia. split; [reflexivity | simpl; lia].
Qed.

Lemma cycles_total_scale (w T k : Z) (n : nat) :
  cycles_total (w * k) T n = (k * cycles_total w T n)%Z.
Proof.
  induction n as [| n IH]; simpl; [lia |]. rewrite IH. ring.
Qed.

(** X28: whenever the loop exits, for [t >= 0], it has removed a whole
    number [k] of restart cycles: the cycle length it ends with is
    [warmup_steps * T_mult^k], the iterations removed are
    [warmup_steps * (1 + T_mult + ... + T_mult^(k-1))], and the
    iterations left lie inside the current cycle. *)
Theorem warm_restarts_loop_invariant (w T t : Z) (fuel : nat) (t1 T1 : Z) :
  (0 <= t)%Z ->
  while_loop fuel T t w = Some (t1, T1) ->
  exists k : nat,
    T1 = (w * T ^ Z.of_nat k)%Z
    /\ t = (cycles_total w T k + t1)%Z
    /\ (0 <= t1 < T1)%Z.
Proof.
  revert w t. induction fuel as [| fuel IH]; intros w t Ht H;
    cbn [while_loop] in H; destruct (Z.geb_spec t w) as [Hge | Hlt];
    try discriminate H.
  - injection H as <- <-. exists 0%nat. simpl. split; [ring | lia].
  - apply IH in H; [| lia]. destruct H as (k & HT & Htot & Hb).
    exists (S k). rewrite Nat2Z.inj_succ, Z.pow_succ_r by lia.
    cbn [cycles_total]. rewrite cycles_total_scale in Htot.
    split; [rewrite HT; ring | split; [lia | exact Hb]].
  - injection H as <- <-. exists 0%nat. simpl. split; [ring | lia].
Qed.

Lemma while_loop_alternating (w : Z) (fuel : nat) :
  (1 <= w)%Z ->
  forall t, (w <= t)%Z ->
    while_loop fuel (-1) t w = None
    /\ while_loop fuel (-1) (t - w) (- w) = None.
Proof.
  intros Hw. induction fuel as [| fuel IH]; intros t Ht.
  - simpl. destruct (Z.geb_spec t w); [| lia].
    destruct (Z.geb_spec (t - w) (- w)); [| lia]. now split.
  - destruct (IH t Ht) as [IH1 IH2]. cbn [while_loop].
    destruct (Z.geb_spec t w); [| lia].
    destruct (Z.geb_spec (t - w) (- w)); [| lia].
    replace (w * -1)%Z with (- w)%Z by lia.
    replace (t - w - - w)%Z with t by lia.
    replace (- w * -1)%Z with w by lia.
    now split.
Qed.

(** X29: [T_mult = -1] hangs the call: with [warmup_steps >= 1] and
    [t >= warmup_steps] the cycle length alternates between
    [warmup_steps] and its opposite, and the loop never exits. *)
Theorem warm_restarts_negative_mult_diverges
    (self : CosineAnnealingWarmRestarts.t) (t : Z) (fuel : nat) :
  (1 <= warmup_steps self)%Z -> T_mult self = (-1)%Z ->
  (warmup_steps self <= t)%Z ->
  __call__ fuel self t = None.
Proof.
  intros Hw HT Ht. unfold __call__.
  rewrite pymod_ok, HT by lia. cbv zeta.
  now rewrite (proj1 (while_loop_alternating (warmup_steps self) fuel Hw t Ht)).
Qed.


End WarmRestartsMore.

Lemma warm_restarts_fixed_period_loop_witness :
  CosineAnnealingWarmRestarts.while_loop 2 1 25 10 = Some ((25 mod 10)%Z, 10%Z)
  /\ CosineAnnealingWarmRestarts.while_loop 1 1 25 10 = None.
Proof.
  split.
  - apply (proj1 (warm_restarts_fixed_period_loop 10 25 2
                    ltac:(lia) ltac:(lia))).
    simpl. lia.
  - apply (proj2 (warm_restarts_fixed_period_loop 10 25 1
                    ltac:(lia) ltac:(lia))).
    simpl. lia.
Defined.

Lemma warm_restarts_loop_invariant_witness :
  exists k : nat,
    20%Z = (10 * 2 ^ Z.of_nat k)%Z
    /\ 25%Z = (cycles_total 10 2 k + 15)%Z
    /\ (0 <= 15 < 20)%Z.
Proof.
  apply (warm_restarts_loop_invariant 10 2 25 25 15 20);
    [lia | reflexivity].
Defined.

Lemma warm_restarts_negative_mult_diverges_witness :
  CosineAnnealingWarmRestarts.__call__ 1000
    (CosineAnnealingWarmRestarts.mk 3e-4 3e-5 10 (-1)) 25 = None.
Proof.
  apply warm_restarts_negative_mult_diverges; simpl; lia.
Defined.

